(** * TCP Mario congestion control (tcp_mario.c)

    A shallow embedding of the congestion-control module: the five
    file-scope [u32] variables, the five callbacks the module registers in
    its [tcp_congestion_ops] table, and the two sysctl knobs.

    Integers are [Z]; every [u32] operation of the C text is written with
    its wrap-around ([to_u32]).  The two places where C gives no value -- a
    division by zero and a shift by 32 bits or more -- are faults of the
    [outcome] type. *)

From Stdlib Require Import ZArith List Lia Bool.
Import ListNotations.
Local Open Scope Z_scope.

(** ** Machine integers *)

Module U32.

Definition modulus : Z := 2 ^ 32.

(** Conversion to [u32]: reduction modulo 2^32. *)
Definition to_u32 (z : Z) : Z := z mod modulus.

Definition in_range (z : Z) : Prop := 0 <= z < modulus.

Definition add (a b : Z) : Z := to_u32 (a + b).
Definition mul (a b : Z) : Z := to_u32 (a * b).

(** [a << n] on a 32-bit unsigned operand, for a shift count already
    known to be below the width. *)
Definition shl (a n : Z) : Z := to_u32 (Z.shiftl a n).

End U32.

Module S32.

(** Signed division of C: the quotient is truncated toward zero. *)
Definition div (a b : Z) : Z := Z.quot a b.

End S32.

(** ** Outcomes *)

Inductive fault : Type :=
| DivByZero
| ShiftOutOfRange.

Inductive outcome (A : Type) : Type :=
| Ok (a : A)
| Fault (f : fault).

Arguments Ok {A} a.
Arguments Fault {A} f.

Definition bind {A B : Type} (m : outcome A) (k : A -> outcome B) : outcome B :=
  match m with
  | Ok a => k a
  | Fault f => Fault f
  end.

(** ** Program state *)

(** [#define SAMPLE_SIZE 100] and [#define INIT_FACTOR 10]. *)
Definition SAMPLE_SIZE : Z := 100.
Definition INIT_FACTOR : Z := 10.

(** The file-scope variables
    [static u32 bandwidth; static u32 base_cwnd; static u32 rtt, rtt_cnt;
     static u32 factor = INIT_FACTOR;]. *)
Record globals : Type := mkGlobals {
  bandwidth : Z;
  base_cwnd : Z;
  rtt : Z;
  rtt_cnt : Z;
  factor : Z
}.

(** The one field of [struct tcp_sock] the module touches. *)
Record tcp_sock : Type := mkSock {
  snd_cwnd : Z
}.

(** Values of the statics when the module is loaded. *)
Definition module_load : globals :=
  {| bandwidth := 0; base_cwnd := 0; rtt := 0; rtt_cnt := 0;
     factor := INIT_FACTOR |}.

Definition set_bandwidth (v : Z) (g : globals) : globals :=
  {| bandwidth := v; base_cwnd := base_cwnd g; rtt := rtt g;
     rtt_cnt := rtt_cnt g; factor := factor g |}.

Definition set_base_cwnd (v : Z) (g : globals) : globals :=
  {| bandwidth := bandwidth g; base_cwnd := v; rtt := rtt g;
     rtt_cnt := rtt_cnt g; factor := factor g |}.

Definition set_rtt (v : Z) (g : globals) : globals :=
  {| bandwidth := bandwidth g; base_cwnd := base_cwnd g; rtt := v;
     rtt_cnt := rtt_cnt g; factor := factor g |}.

Definition set_rtt_cnt (v : Z) (g : globals) : globals :=
  {| bandwidth := bandwidth g; base_cwnd := base_cwnd g; rtt := rtt g;
     rtt_cnt := v; factor := factor g |}.

Definition set_factor (v : Z) (g : globals) : globals :=
  {| bandwidth := bandwidth g; base_cwnd := base_cwnd g; rtt := rtt g;
     rtt_cnt := rtt_cnt g; factor := v |}.

Definition set_snd_cwnd (v : Z) (tp : tcp_sock) : tcp_sock :=
  {| snd_cwnd := v |}.

(** All five statics hold [u32] values. *)
Definition globals_wf (g : globals) : Prop :=
  U32.in_range (bandwidth g) /\ U32.in_range (base_cwnd g) /\
  U32.in_range (rtt g) /\ U32.in_range (rtt_cnt g) /\
  U32.in_range (factor g).

(** ** The callbacks *)

(** [tcp_mario_init]:
    [base_cwnd = bandwidth << 7; rtt = 0; rtt_cnt = 0;
     tp->snd_cwnd = base_cwnd;]. *)
Definition tcp_mario_init (g : globals) (tp : tcp_sock) : globals * tcp_sock :=
  let g := set_base_cwnd (U32.shl (bandwidth g) 7) g in
  let g := set_rtt 0 g in
  let g := set_rtt_cnt 0 g in
  let tp := set_snd_cwnd (base_cwnd g) tp in
  (g, tp).

(** [tcp_mario_cong_avoid]: [tp->snd_cwnd = base_cwnd;].  The three
    arguments [ack], [acked], [in_flight] are not read. *)
Definition tcp_mario_cong_avoid (g : globals) (tp : tcp_sock)
    (ack acked in_flight : Z) : globals * tcp_sock :=
  let tp := set_snd_cwnd (base_cwnd g) tp in
  (g, tp).

(** [tcp_mario_ssthresh]: [tp->snd_cwnd = base_cwnd; return base_cwnd;]. *)
Definition tcp_mario_ssthresh (g : globals) (tp : tcp_sock)
    : globals * tcp_sock * Z :=
  let tp := set_snd_cwnd (base_cwnd g) tp in
  (g, tp, base_cwnd g).

(** [tcp_mario_undo_cwnd]:
    [tp->snd_cwnd = base_cwnd; return tp->snd_cwnd;]. *)
Definition tcp_mario_undo_cwnd (g : globals) (tp : tcp_sock)
    : globals * tcp_sock * Z :=
  let tp := set_snd_cwnd (base_cwnd g) tp in
  (g, tp, snd_cwnd tp).

(** *** [tcp_mario_pkts_acked] *)

(** The right-hand side of line 98,
    [1 + bandwidth << 10 * avg_rtt/(factor * 1000)].
    In C the multiplicative operators bind tighter than [+], and [+] binds
    tighter than [<<]; the expression therefore parses as
    [(1 + bandwidth) << ((10 * avg_rtt) / (factor * 1000))], every
    operation on [u32]. *)
Definition base_cwnd_rhs (bandwidth avg_rtt factor : Z) : outcome Z :=
  let lhs := U32.add 1 bandwidth in
  let divisor := U32.mul factor 1000 in
  if divisor =? 0 then Fault DivByZero
  else
    let count := U32.mul 10 avg_rtt / divisor in
    if 32 <=? count then Fault ShiftOutOfRange
    else Ok (U32.shl lhs count).

(** First statement: [if (rtt_cnt > SAMPLE_SIZE) return;]. *)
Definition frozen (g : globals) : bool := SAMPLE_SIZE <? rtt_cnt g.

(** The test [rtt_us > 0 && rtt_us < 300], on the value already divided
    by 1000. *)
Definition valid_ms (ms : Z) : bool := (0 <? ms) && (ms <? 300).

(** [rtt_us /= 1000; if (rtt_us > 0 && rtt_us < 300) { rtt_cnt++;
    rtt += rtt_us; }]. *)
Definition accumulate (g : globals) (rtt_us : Z) : globals :=
  let rtt_us := S32.div rtt_us 1000 in
  if valid_ms rtt_us then
    let g := set_rtt_cnt (U32.add (rtt_cnt g) 1) g in
    set_rtt (U32.add (rtt g) rtt_us) g
  else g.

(** Body of [if (rtt_cnt == SAMPLE_SIZE) { ... }]:
    [avg_rtt = rtt/rtt_cnt; base_cwnd = ...;]. *)
Definition recompute (g : globals) : outcome globals :=
  if rtt_cnt g =? 0 then Fault DivByZero
  else
    let avg_rtt := rtt g / rtt_cnt g in
    bind (base_cwnd_rhs (bandwidth g) avg_rtt (factor g))
         (fun v => Ok (set_base_cwnd v g)).

Definition tcp_mario_pkts_acked (g : globals) (tp : tcp_sock)
    (num_acked rtt_us : Z) : outcome (globals * tcp_sock) :=
  if frozen g then Ok (g, tp)
  else
    let g := accumulate g rtt_us in
    if rtt_cnt g =? SAMPLE_SIZE then
      bind (recompute g) (fun g => Ok (g, tp))
    else Ok (g, tp).

(** Whether a call reaches the assignment to [base_cwnd] on line 98. *)
Definition recomputes (g : globals) (rtt_us : Z) : bool :=
  negb (frozen g) && (rtt_cnt (accumulate g rtt_us) =? SAMPLE_SIZE).

(** ** The sysctl table and runs of the module *)

(** The two entries of [tcp_mario_table]: [proc_dointvec] stores the
    written integer in the 32-bit variable. *)
Definition sysctl_bandwidth (v : Z) (g : globals) : globals :=
  set_bandwidth (U32.to_u32 v) g.

Definition sysctl_factor (v : Z) (g : globals) : globals :=
  set_factor (U32.to_u32 v) g.

(** What the surrounding stack and the operator can do to the module:
    the five callbacks of the [tcp_mario] table and a write to either
    sysctl entry. *)
Inductive call : Type :=
| Init
| CongAvoid (ack acked in_flight : Z)
| Ssthresh
| PktsAcked (num_acked rtt_us : Z)
| UndoCwnd
| WriteBandwidth (v : Z)
| WriteFactor (v : Z).

Definition world : Type := (globals * tcp_sock)%type.

Definition step (w : world) (c : call) : outcome world :=
  let (g, tp) := w in
  match c with
  | Init => Ok (tcp_mario_init g tp)
  | CongAvoid ack acked in_flight =>
      Ok (tcp_mario_cong_avoid g tp ack acked in_flight)
  | Ssthresh => Ok (fst (tcp_mario_ssthresh g tp))
  | PktsAcked num_acked rtt_us => tcp_mario_pkts_acked g tp num_acked rtt_us
  | UndoCwnd => Ok (fst (tcp_mario_undo_cwnd g tp))
  | WriteBandwidth v => Ok (sysctl_bandwidth v g, tp)
  | WriteFactor v => Ok (sysctl_factor v g, tp)
  end.

Fixpoint run (w : world) (cs : list call) : outcome world :=
  match cs with
  | [] => Ok w
  | c :: cs' => bind (step w c) (fun w' => run w' cs')
  end.

(** Number of calls of a run that reach the assignment of line 98. *)
Fixpoint recomputations (w : world) (cs : list call) : nat :=
  match cs with
  | [] => O
  | c :: cs' =>
      let here :=
        match c with
        | PktsAcked _ rtt_us => if recomputes (fst w) rtt_us then 1%nat else O
        | _ => O
        end in
      match step w c with
      | Ok w' => (here + recomputations w' cs')%nat
      | Fault _ => here
      end
  end.

(** States a connection can be in: any run that starts with
    [tcp_mario_init]. *)
Definition reachable (w : world) : Prop :=
  exists g0 tp0 cs, run (tcp_mario_init g0 tp0) cs = Ok w.

(** A socket as the stack hands it over; whatever window it carries is
    overwritten by [tcp_mario_init]. *)
Definition fresh_sock : tcp_sock := {| snd_cwnd := 10 |}.

(** A burst of acknowledgements, one call of [tcp_mario_pkts_acked] per
    sample, and the number of its samples that pass the test of line 92. *)
Definition deliver (samples : list Z) : list call :=
  map (PktsAcked 1) samples.

Definition valid_samples (samples : list Z) : Z :=
  Z.of_nat (length (filter (fun r => valid_ms (S32.div r 1000)) samples)).

(** The accepted samples of a burst, in milliseconds, added up. *)
Definition valid_sum (samples : list Z) : Z :=
  fold_right Z.add 0
    (map (fun r => S32.div r 1000)
         (filter (fun r => valid_ms (S32.div r 1000)) samples)).

Definition is_init (c : call) : bool :=
  match c with
  | Init => true
  | _ => false
  end.

(** The accumulator between two calls: the count is at most one past
    [SAMPLE_SIZE] and every counted sample contributed between 1 and 299
    milliseconds to the sum. *)
Definition sampler_inv (g : globals) : Prop :=
  0 <= rtt_cnt g <= SAMPLE_SIZE + 1 /\
  rtt_cnt g <= rtt g <= 299 * rtt_cnt g.

(** ** Several connections *)

(** The statics are one set for the whole module, while every connection
    brings its own [struct sock]: the stack calls the same callbacks with
    different [sk].  Connections are numbered; a call is tagged with the
    connection it is made for (a sysctl write carries a tag as well, which
    plays no role). *)
Definition sockets : Type := nat -> tcp_sock.

Definition update_sock (s : sockets) (i : nat) (tp : tcp_sock) : sockets :=
  fun j => if Nat.eqb j i then tp else s j.

Definition step_on (st : globals * sockets) (ic : nat * call)
    : outcome (globals * sockets) :=
  let (g, s) := st in
  let (i, c) := ic in
  bind (step (g, s i) c) (fun w => Ok (fst w, update_sock s i (snd w))).

Fixpoint run_on (st : globals * sockets) (ics : list (nat * call))
    : outcome (globals * sockets) :=
  match ics with
  | [] => Ok st
  | ic :: ics' => bind (step_on st ic) (fun st' => run_on st' ics')
  end.

Definition outcome_map {A B : Type} (f : A -> B) (m : outcome A) : outcome B :=
  bind m (fun a => Ok (f a)).

(** ** The estimator as section 4.3 of the specification words it *)

(** [target = 1 + (bandwidth << 10) * avg_rtt_ms / (scale_factor * 1000)],
    all arithmetic unsigned, 32 bits wide. This definition follows the
    specification's formula, not the C text; it is compared with
    [base_cwnd_rhs] below. *)
Definition spec_compute_target (bandwidth avg_rtt_ms scale_factor : Z)
    : outcome Z :=
  let divisor := U32.mul scale_factor 1000 in
  if divisor =? 0 then Fault DivByZero
  else Ok (U32.add 1 (U32.mul (U32.shl bandwidth 10) avg_rtt_ms / divisor)).

(** * Properties *)

(** ** Arithmetic on 32-bit values *)

Lemma to_u32_range (z : Z) : U32.in_range (U32.to_u32 z).
Proof.
  unfold U32.in_range, U32.to_u32, U32.modulus.
  apply Z.mod_pos_bound. reflexivity.
Qed.

Lemma to_u32_small (z : Z) : U32.in_range z -> U32.to_u32 z = z.
Proof.
  unfold U32.in_range, U32.to_u32. intros H. now apply Z.mod_small.
Qed.

Lemma shl_as_mul (a n : Z) : 0 <= n -> U32.shl a n = U32.mul a (2 ^ n).
Proof.
  intros Hn. unfold U32.shl, U32.mul. now rewrite Z.shiftl_mul_pow2.
Qed.

Lemma shl_0 (a : Z) : U32.in_range a -> U32.shl a 0 = a.
Proof.
  intros Ha. unfold U32.shl. rewrite Z.shiftl_0_r. now apply to_u32_small.
Qed.

(** ** The three overriding callbacks and [tcp_mario_init] *)

Section Controller.

Variables (g : globals) (tp : tcp_sock).

(** C8. Congestion avoidance, the slow-start-threshold query and the
    undo of a window reduction each store the current target
    [base_cwnd] in the socket's [snd_cwnd]; the two that return a value
    return exactly that target; none of them reads its arguments or
    changes the module's variables.  So the window served is never
    below (nor above) the target, whatever the stack passes. *)
Theorem controller_serves_target (ack acked in_flight : Z) :
  tcp_mario_cong_avoid g tp ack acked in_flight
    = (g, {| snd_cwnd := base_cwnd g |}) /\
  tcp_mario_ssthresh g tp = (g, {| snd_cwnd := base_cwnd g |}, base_cwnd g) /\
  tcp_mario_undo_cwnd g tp = (g, {| snd_cwnd := base_cwnd g |}, base_cwnd g).
Proof. repeat split. Qed.

(** C9. [tcp_mario_init] sets the active window to [bandwidth * 128],
    the product taken in 32-bit unsigned arithmetic; the same value
    becomes the target. *)
Theorem init_window_is_bandwidth_times_128 :
  snd_cwnd (snd (tcp_mario_init g tp)) = U32.mul (bandwidth g) 128 /\
  base_cwnd (fst (tcp_mario_init g tp)) = U32.mul (bandwidth g) 128.
Proof.
  cbn [tcp_mario_init fst snd snd_cwnd base_cwnd set_snd_cwnd set_base_cwnd
       set_rtt set_rtt_cnt].
  rewrite shl_as_mul by lia. now split.
Qed.

(** C2, as the code has it. [tcp_mario_init] clears both the sample
    count and the sample sum, and leaves the two tunables alone. *)
Theorem init_resets_count_and_sum :
  rtt_cnt (fst (tcp_mario_init g tp)) = 0 /\
  rtt (fst (tcp_mario_init g tp)) = 0 /\
  bandwidth (fst (tcp_mario_init g tp)) = bandwidth g /\
  factor (fst (tcp_mario_init g tp)) = factor g.
Proof. repeat split. Qed.

End Controller.

(** C2, as the claim states it, fails: a sum of 4200 accumulated over 42
    samples does not survive [tcp_mario_init]. *)
Lemma init_keeps_sum_counterexample :
  let g := {| bandwidth := 1000; base_cwnd := 128000; rtt := 4200;
              rtt_cnt := 42; factor := 10 |} in
  rtt_cnt (fst (tcp_mario_init g fresh_sock)) = 0 /\
  rtt (fst (tcp_mario_init g fresh_sock)) <> rtt g.
Proof. cbn. split; [reflexivity | discriminate]. Qed.

(** ** The sampler, [tcp_mario_pkts_acked] *)

(** [recompute] writes [base_cwnd] and nothing else. *)
Lemma recompute_frame (g g' : globals) :
  recompute g = Ok g' ->
  exists v, g' = set_base_cwnd v g.
Proof.
  unfold recompute. destruct (rtt_cnt g =? 0); [discriminate|].
  destruct (base_cwnd_rhs _ _ _) as [v|f]; cbn [bind]; [|discriminate].
  intros [= <-]. now exists v.
Qed.

Section Sampler.

Variables (g : globals) (tp : tcp_sock) (num_acked rtt_us : Z).

(** The early return: with more than [SAMPLE_SIZE] samples counted the
    call changes nothing. *)
Lemma pkts_acked_frozen :
  frozen g = true -> tcp_mario_pkts_acked g tp num_acked rtt_us = Ok (g, tp).
Proof. unfold tcp_mario_pkts_acked. now intros ->. Qed.

(** The call seen through [recomputes]. *)
Lemma pkts_acked_cases :
  tcp_mario_pkts_acked g tp num_acked rtt_us =
    if recomputes g rtt_us
    then bind (recompute (accumulate g rtt_us)) (fun g' => Ok (g', tp))
    else Ok (if frozen g then g else accumulate g rtt_us, tp).
Proof.
  unfold tcp_mario_pkts_acked, recomputes.
  destruct (frozen g); cbn [negb andb]; [reflexivity|].
  now destruct (rtt_cnt (accumulate g rtt_us) =? SAMPLE_SIZE).
Qed.

Lemma accumulate_rejects :
  valid_ms (S32.div rtt_us 1000) = false -> accumulate g rtt_us = g.
Proof. unfold accumulate. now intros ->. Qed.

Lemma accumulate_accepts :
  valid_ms (S32.div rtt_us 1000) = true ->
  accumulate g rtt_us =
    {| bandwidth := bandwidth g; base_cwnd := base_cwnd g;
       rtt := U32.add (rtt g) (S32.div rtt_us 1000);
       rtt_cnt := U32.add (rtt_cnt g) 1; factor := factor g |}.
Proof. unfold accumulate. now intros ->. Qed.

Lemma accumulate_tunables :
  bandwidth (accumulate g rtt_us) = bandwidth g /\
  factor (accumulate g rtt_us) = factor g /\
  base_cwnd (accumulate g rtt_us) = base_cwnd g.
Proof. unfold accumulate. now destruct (valid_ms _). Qed.

Lemma accumulate_rtt_cnt :
  0 <= rtt_cnt g <= SAMPLE_SIZE ->
  rtt_cnt g <= rtt_cnt (accumulate g rtt_us) <= rtt_cnt g + 1.
Proof.
  unfold SAMPLE_SIZE. intros Hc. unfold accumulate.
  destruct (valid_ms _); cbn [rtt_cnt set_rtt set_rtt_cnt]; [|lia].
  unfold U32.add. rewrite to_u32_small; [lia|].
  unfold U32.in_range, U32.modulus. change (2 ^ 32) with 4294967296. lia.
Qed.

(** The socket comes back as it went in. *)
Lemma pkts_acked_sock (g' : globals) (tp' : tcp_sock) :
  tcp_mario_pkts_acked g tp num_acked rtt_us = Ok (g', tp') -> tp' = tp.
Proof.
  unfold tcp_mario_pkts_acked.
  destruct (frozen g); [now intros [= _ <-]|].
  destruct (rtt_cnt (accumulate g rtt_us) =? SAMPLE_SIZE).
  - destruct (recompute _); cbn [bind]; [now intros [= _ <-] | discriminate].
  - now intros [= _ <-].
Qed.

(** One more than [SAMPLE_SIZE] is as far as the count can go. *)
Lemma pkts_acked_rtt_cnt (g' : globals) (tp' : tcp_sock) :
  0 <= rtt_cnt g <= SAMPLE_SIZE + 1 ->
  tcp_mario_pkts_acked g tp num_acked rtt_us = Ok (g', tp') ->
  0 <= rtt_cnt g' <= SAMPLE_SIZE + 1.
Proof.
  intros Hc. unfold tcp_mario_pkts_acked.
  destruct (frozen g) eqn:Hf; [now intros [= <- _]|].
  unfold frozen in Hf. apply Z.ltb_ge in Hf.
  assert (Ha := accumulate_rtt_cnt (conj (proj1 Hc) Hf)).
  destruct (rtt_cnt (accumulate g rtt_us) =? SAMPLE_SIZE).
  - destruct (recompute _) as [g1|] eqn:Hr; cbn [bind]; [|discriminate].
    intros [= <- _]. apply recompute_frame in Hr as [v ->].
    cbn [rtt_cnt set_base_cwnd]. lia.
  - intros [= <- _]. lia.
Qed.

End Sampler.

(** The count stays within [0, SAMPLE_SIZE + 1] along every run. *)
Lemma step_rtt_cnt (w w' : world) (c : call) :
  0 <= rtt_cnt (fst w) <= SAMPLE_SIZE + 1 ->
  step w c = Ok w' ->
  0 <= rtt_cnt (fst w') <= SAMPLE_SIZE + 1.
Proof.
  destruct w as [g tp], w' as [g' tp']. cbn [fst]. intros Hc.
  destruct c; cbn [step];
    try (intros [= <- _]; cbn; unfold SAMPLE_SIZE in *; lia).
  now apply pkts_acked_rtt_cnt.
Qed.

Lemma run_rtt_cnt (cs : list call) : forall (w w' : world),
  0 <= rtt_cnt (fst w) <= SAMPLE_SIZE + 1 ->
  run w cs = Ok w' ->
  0 <= rtt_cnt (fst w') <= SAMPLE_SIZE + 1.
Proof.
  induction cs as [|c cs IH]; intros w w' Hc; cbn [run].
  - now intros [= <-].
  - destruct (step w c) as [w1|] eqn:Hs; cbn [bind]; [|discriminate].
    apply IH. eapply step_rtt_cnt; eassumption.
Qed.

Lemma reachable_rtt_cnt (w : world) :
  reachable w -> 0 <= rtt_cnt (fst w) <= SAMPLE_SIZE + 1.
Proof.
  intros (g0 & tp0 & cs & Hrun). eapply run_rtt_cnt; [|exact Hrun].
  cbn. unfold SAMPLE_SIZE. lia.
Qed.

(** C10. A call of [tcp_mario_pkts_acked] that returns hands the socket
    back with [snd_cwnd] as it was, whatever it did to the target; the
    target it leaves reaches the active window at the next
    [tcp_mario_cong_avoid], [tcp_mario_ssthresh] or [tcp_mario_undo_cwnd]. *)
Theorem pkts_acked_leaves_snd_cwnd
    (g : globals) (tp : tcp_sock) (num_acked rtt_us : Z)
    (g' : globals) (tp' : tcp_sock) :
  tcp_mario_pkts_acked g tp num_acked rtt_us = Ok (g', tp') ->
  snd_cwnd tp' = snd_cwnd tp /\
  (forall ack acked in_flight,
     snd_cwnd (snd (tcp_mario_cong_avoid g' tp' ack acked in_flight))
       = base_cwnd g') /\
  snd_cwnd (snd (fst (tcp_mario_ssthresh g' tp'))) = base_cwnd g' /\
  snd_cwnd (snd (fst (tcp_mario_undo_cwnd g' tp'))) = base_cwnd g'.
Proof.
  intros H. apply pkts_acked_sock in H. subst tp'. repeat split.
Qed.

(** The hundredth sample of a connection opened at bandwidth 1000: the
    target moves from 128000 to 1001 while the active window stays at
    128000. *)
Lemma pkts_acked_leaves_snd_cwnd_witness :
  let g := {| bandwidth := 1000; base_cwnd := 128000; rtt := 4950;
              rtt_cnt := 99; factor := 10 |} in
  let tp := {| snd_cwnd := 128000 |} in
  exists g' tp',
    tcp_mario_pkts_acked g tp 1 50000 = Ok (g', tp') /\
    base_cwnd g' = 1001 /\
    snd_cwnd tp' = 128000 /\
    snd_cwnd (snd (fst (tcp_mario_ssthresh g' tp'))) = 1001.
Proof.
  intros g tp.
  exists {| bandwidth := 1000; base_cwnd := 1001; rtt := 5000;
            rtt_cnt := 100; factor := 10 |}, tp.
  assert (H : tcp_mario_pkts_acked g tp 1 50000 =
              Ok ({| bandwidth := 1000; base_cwnd := 1001; rtt := 5000;
                     rtt_cnt := 100; factor := 10 |}, tp))
    by (vm_compute; reflexivity).
  split; [exact H|]. split; [reflexivity|].
  destruct (pkts_acked_leaves_snd_cwnd g tp 1 50000 _ _ H) as (H1 & _ & H3 & _).
  split; [exact H1 | exact H3].
Defined.

(** ** The statics stay 32-bit values *)

Lemma base_cwnd_rhs_range (bw avg f v : Z) :
  base_cwnd_rhs bw avg f = Ok v -> U32.in_range v.
Proof.
  unfold base_cwnd_rhs.
  destruct (U32.mul f 1000 =? 0); [discriminate|].
  destruct (32 <=? _); [discriminate|].
  intros [= <-]. apply to_u32_range.
Qed.

Ltac wf_split :=
  unfold globals_wf;
  repeat match goal with |- _ /\ _ => split end;
  cbn [bandwidth base_cwnd rtt rtt_cnt factor set_bandwidth set_base_cwnd
       set_rtt set_rtt_cnt set_factor sysctl_bandwidth sysctl_factor];
  try assumption; try apply to_u32_range.

Lemma accumulate_wf (g : globals) (rtt_us : Z) :
  globals_wf g -> globals_wf (accumulate g rtt_us).
Proof.
  intros Hwf. unfold accumulate.
  destruct (valid_ms _); [|assumption].
  destruct Hwf as (Hb & Hw & Hr & Hc & Hf). wf_split.
Qed.

Lemma recompute_wf (g g' : globals) :
  globals_wf g -> recompute g = Ok g' -> globals_wf g'.
Proof.
  intros (Hb & Hw & Hr & Hc & Hf). unfold recompute.
  destruct (rtt_cnt g =? 0); [discriminate|].
  destruct (base_cwnd_rhs _ _ _) as [v|] eqn:Hv; cbn [bind]; [|discriminate].
  intros [= <-]. apply base_cwnd_rhs_range in Hv. wf_split.
Qed.

Lemma step_wf (w w' : world) (c : call) :
  globals_wf (fst w) -> step w c = Ok w' -> globals_wf (fst w').
Proof.
  destruct w as [g tp], w' as [g' tp']. cbn [fst].
  intros Hwf. assert (Hwf' := Hwf). destruct Hwf' as (Hb & Hw & Hr & Hc & Hf).
  destruct c; cbn [step].
  - intros [= <- _]. wf_split; unfold U32.in_range, U32.modulus; lia.
  - now intros [= <- _].
  - now intros [= <- _].
  - unfold tcp_mario_pkts_acked. destruct (frozen g); [now intros [= <- _]|].
    destruct (_ =? SAMPLE_SIZE).
    + destruct (recompute _) as [g1|] eqn:Hg1; cbn [bind]; [|discriminate].
      intros [= <- _]. eapply recompute_wf; [|exact Hg1].
      now apply accumulate_wf.
    + intros [= <- _]. now apply accumulate_wf.
  - now intros [= <- _].
  - intros [= <- _]. wf_split.
  - intros [= <- _]. wf_split.
Qed.

(** ** The guard of line 87 *)

(** A valid sample arriving with exactly [SAMPLE_SIZE] samples counted is
    still accumulated, without a recomputation; only then is the sampler
    frozen. *)
Lemma valid_sample_at_batch_size (g : globals) (rtt_us : Z) :
  rtt_cnt g = SAMPLE_SIZE ->
  valid_ms (S32.div rtt_us 1000) = true ->
  recomputes g rtt_us = false /\
  rtt_cnt (accumulate g rtt_us) = SAMPLE_SIZE + 1 /\
  frozen (accumulate g rtt_us) = true.
Proof.
  intros Hc Hv. unfold recomputes, frozen.
  rewrite (accumulate_accepts _ _ Hv). cbn [rtt_cnt]. rewrite Hc.
  now vm_compute.
Qed.

(** A rejected sample arriving with exactly [SAMPLE_SIZE] samples counted
    runs the assignment of line 98 again. *)
Lemma invalid_sample_at_batch_size (g : globals) (rtt_us : Z) :
  rtt_cnt g = SAMPLE_SIZE ->
  valid_ms (S32.div rtt_us 1000) = false ->
  recomputes g rtt_us = true.
Proof.
  intros Hc Hv. unfold recomputes, frozen.
  rewrite (accumulate_rejects _ _ Hv), Hc. reflexivity.
Qed.

Lemma frozen_never_recomputes (g : globals) (rtt_us : Z) :
  frozen g = true -> recomputes g rtt_us = false.
Proof. unfold recomputes. now intros ->. Qed.

(** Until the hundredth valid sample the count is the number of valid
    samples seen, the target is not touched and line 98 is not reached. *)
Lemma below_batch_size (samples : list Z) : forall (g : globals) (tp : tcp_sock),
  0 <= rtt_cnt g ->
  rtt_cnt g + valid_samples samples < SAMPLE_SIZE ->
  exists g',
    run (g, tp) (deliver samples) = Ok (g', tp) /\
    rtt_cnt g' = rtt_cnt g + valid_samples samples /\
    base_cwnd g' = base_cwnd g /\
    recomputations (g, tp) (deliver samples) = O.
Proof.
  unfold SAMPLE_SIZE.
  induction samples as [|r rs IH]; intros g tp Hc Hlt.
  - exists g. cbn. repeat split. unfold valid_samples. cbn. lia.
  - assert (Hv : 0 <= valid_samples rs) by (unfold valid_samples; lia).
    assert (Hcons : valid_samples (r :: rs) =
              (if valid_ms (S32.div r 1000) then 1 else 0) + valid_samples rs).
    { unfold valid_samples. cbn [filter].
      destruct (valid_ms _); cbn [length]; lia. }
    rewrite Hcons in *.
    assert (Hfz : frozen g = false)
      by (unfold frozen, SAMPLE_SIZE; apply Z.ltb_ge;
          destruct (valid_ms _); lia).
    assert (Hacc : rtt_cnt (accumulate g r) =
              rtt_cnt g + (if valid_ms (S32.div r 1000) then 1 else 0)).
    { unfold accumulate. destruct (valid_ms _); cbn [rtt_cnt set_rtt set_rtt_cnt];
        [|lia].
      unfold U32.add. apply to_u32_small.
      unfold U32.in_range, U32.modulus. change (2 ^ 32) with 4294967296. lia. }
    assert (Hne : (rtt_cnt (accumulate g r) =? SAMPLE_SIZE) = false)
      by (apply Z.eqb_neq; unfold SAMPLE_SIZE; rewrite Hacc;
          destruct (valid_ms _); lia).
    assert (Hrec : recomputes g r = false)
      by (unfold recomputes; rewrite Hne; apply andb_false_r).
    assert (Hstep : tcp_mario_pkts_acked g tp 1 r = Ok (accumulate g r, tp))
      by (rewrite pkts_acked_cases, Hrec, Hfz; reflexivity).
    destruct (IH (accumulate g r) tp) as (g' & Hrun & Hcnt & Hcw & Hn);
      [rewrite Hacc; destruct (valid_ms _); lia | rewrite Hacc; lia |].
    exists g'. cbn [deliver map run recomputations step fst].
    rewrite Hstep, Hrec. cbn [bind]. fold (deliver rs).
    repeat split; [exact Hrun | rewrite Hcnt, Hacc; lia | | exact Hn].
    rewrite Hcw. apply (accumulate_tunables g r).
Qed.

(** The hundredth valid sample reaches line 98. *)
Lemma hundredth_valid_sample (g : globals) (rtt_us : Z) :
  rtt_cnt g = SAMPLE_SIZE - 1 ->
  valid_ms (S32.div rtt_us 1000) = true ->
  recomputes g rtt_us = true.
Proof.
  intros Hc Hv. unfold recomputes, frozen.
  rewrite (accumulate_accepts _ _ Hv). cbn [rtt_cnt]. rewrite Hc.
  now vm_compute.
Qed.

(** C3, evaluated. In the state a connection reaches after a hundred
    samples of 50 ms the count is at the batch size, and yet a further
    valid sample raises the count to 101 and the sum to 5050; after the
    operator writes a new bandwidth, a rejected sample rewrites the
    target. *)
Theorem pkts_acked_at_batch_size_is_not_a_noop :
  let g := {| bandwidth := 1000; base_cwnd := 1001; rtt := 5000;
              rtt_cnt := 100; factor := 10 |} in
  let tp := {| snd_cwnd := 128000 |} in
  run (module_load, fresh_sock)
      (WriteBandwidth 1000 :: Init :: repeat (PktsAcked 1 50000) 100)
    = Ok (g, tp) /\
  tcp_mario_pkts_acked g tp 1 50000
    = Ok ({| bandwidth := 1000; base_cwnd := 1001; rtt := 5050;
             rtt_cnt := 101; factor := 10 |}, tp) /\
  tcp_mario_pkts_acked (sysctl_bandwidth 2000 g) tp 1 (-1)
    = Ok ({| bandwidth := 2000; base_cwnd := 2001; rtt := 5000;
             rtt_cnt := 100; factor := 10 |}, tp).
Proof. vm_compute. repeat split. Qed.

(** C4, evaluated. A connection that receives 101 valid samples after
    [tcp_mario_init] has a sample count of 101. *)
Theorem sample_count_reaches_101 :
  exists w : world,
    run (module_load, fresh_sock) (Init :: repeat (PktsAcked 1 50000) 101)
      = Ok w /\
    reachable w /\
    rtt_cnt (fst w) = 101 /\
    ~ (0 <= rtt_cnt (fst w) <= SAMPLE_SIZE).
Proof.
  exists ({| bandwidth := 0; base_cwnd := 1; rtt := 5050; rtt_cnt := 101;
             factor := 10 |}, {| snd_cwnd := 0 |}).
  split; [vm_compute; reflexivity|]. split.
  - exists module_load, fresh_sock, (repeat (PktsAcked 1 50000) 101).
    vm_compute. reflexivity.
  - cbn. unfold SAMPLE_SIZE. split; [reflexivity | lia].
Qed.

(** C6, evaluated. After a hundred valid samples, one rejected sample
    (here the stack's "no sample" value, -1) reaches the assignment of
    line 98 a second time; with a bandwidth written in between, the
    second pass changes the target from 1 to 6. *)
Theorem target_recomputed_twice :
  let w0 := (module_load, fresh_sock) in
  let batch := Init :: repeat (PktsAcked 1 50000) 100 in
  recomputations w0 batch = 1%nat /\
  recomputations w0 (batch ++ [PktsAcked 1 (-1)]) = 2%nat /\
  run w0 (batch ++ [WriteBandwidth 5])
    = Ok ({| bandwidth := 5; base_cwnd := 1; rtt := 5000; rtt_cnt := 100;
             factor := 10 |}, {| snd_cwnd := 0 |}) /\
  run w0 (batch ++ [WriteBandwidth 5; PktsAcked 1 (-1)])
    = Ok ({| bandwidth := 5; base_cwnd := 6; rtt := 5000; rtt_cnt := 100;
             factor := 10 |}, {| snd_cwnd := 0 |}).
Proof. vm_compute. repeat split. Qed.

(** ** The assignment of line 98 *)

(** How the C text parses, when it has a value. *)
Lemma base_cwnd_rhs_parse (bw avg f : Z) :
  U32.mul f 1000 <> 0 ->
  U32.mul 10 avg / U32.mul f 1000 < 32 ->
  base_cwnd_rhs bw avg f
    = Ok (U32.shl (U32.add 1 bw) (U32.mul 10 avg / U32.mul f 1000)).
Proof.
  intros Hd Hc. unfold base_cwnd_rhs.
  destruct (Z.eqb_spec (U32.mul f 1000) 0) as [E|_]; [contradiction|].
  destruct (Z.leb_spec 32 (U32.mul 10 avg / U32.mul f 1000)); [lia|].
  reflexivity.
Qed.

(** With a divisor larger than [10 * avg_rtt] -- the default factor of 10
    and any average below 300 ms, for one -- the shift count is 0 and the
    average has no influence on the result. *)
Lemma base_cwnd_rhs_no_shift (bw avg f : Z) :
  U32.mul 10 avg < U32.mul f 1000 ->
  base_cwnd_rhs bw avg f = Ok (U32.add 1 bw).
Proof.
  intros Hlt.
  assert (Hr := to_u32_range (10 * avg)). unfold U32.in_range in Hr.
  fold (U32.mul 10 avg) in Hr.
  assert (Hq : U32.mul 10 avg / U32.mul f 1000 = 0)
    by (apply Z.div_small; lia).
  rewrite base_cwnd_rhs_parse by lia.
  rewrite Hq. f_equal. apply shl_0. apply to_u32_range.
Qed.

(** Nothing stands between a zero [factor] and the division. *)
Lemma zero_factor_faults (g : globals) (tp : tcp_sock) (num_acked rtt_us : Z) :
  factor g = 0 ->
  recomputes g rtt_us = true ->
  tcp_mario_pkts_acked g tp num_acked rtt_us = Fault DivByZero.
Proof.
  intros Hf Hr. rewrite pkts_acked_cases, Hr.
  unfold recomputes in Hr. apply andb_prop in Hr as [_ Hc].
  apply Z.eqb_eq in Hc. unfold recompute. rewrite Hc.
  destruct (accumulate_tunables g rtt_us) as (_ & -> & _). rewrite Hf.
  reflexivity.
Qed.

(** The divisor [factor * 1000], reduced to 32 bits, is a multiple of 8. *)
Lemma divisor_multiple_of_8 (f : Z) : U32.mul f 1000 mod 8 = 0.
Proof.
  unfold U32.mul, U32.to_u32, U32.modulus.
  rewrite Z.mod_mod_divide by (exists (2 ^ 29); reflexivity).
  replace (f * 1000) with (f * 125 * 8) by lia. apply Z.mod_mul. lia.
Qed.

(** The formula of the specification has the floor the specification
    wants: whenever its divisor is not zero the target is at least 1, and
    exactly 1 for a bandwidth of 0. *)
Lemma spec_compute_target_floor (bw avg f : Z) :
  U32.mul f 1000 <> 0 ->
  exists t, spec_compute_target bw avg f = Ok t /\ 1 <= t /\
            (bw = 0 -> t = 1).
Proof.
  intros Hd. unfold spec_compute_target.
  destruct (Z.eqb_spec (U32.mul f 1000) 0) as [E|_]; [contradiction|].
  eexists. split; [reflexivity|].
  set (d := U32.mul f 1000) in *.
  set (x := U32.mul (U32.shl bw 10) avg).
  assert (Hx : 0 <= x < 4294967296) by apply to_u32_range.
  assert (Hdr : 0 <= d < 4294967296) by apply to_u32_range.
  assert (Hd8 : 8 <= d).
  { assert (H8 := divisor_multiple_of_8 f). fold d in H8.
    apply Z.mod_divide in H8; [|lia]. destruct H8 as [k Hk]. lia. }
  assert (Hq : 0 <= x / d <= x / 8).
  { split; [apply Z.div_pos; lia|].
    apply Z.div_le_compat_l; lia. }
  assert (Hq8 : x / 8 < 536870912) by (apply Z.div_lt_upper_bound; lia).
  unfold U32.add. rewrite to_u32_small
    by (unfold U32.in_range, U32.modulus; change (2 ^ 32) with 4294967296; lia).
  split; [lia|].
  intros ->. subst x. now vm_compute.
Qed.

(** C5. No guard protects the division: the run that opens a connection,
    has the operator write 0 to [factor] and delivers 99 valid samples
    reaches a state in which the hundredth sample completes the batch and
    the recomputation divides by zero. *)
Theorem zero_factor_division_by_zero_reachable :
  exists (cs : list call) (w : world),
    run (module_load, fresh_sock) cs = Ok w /\
    reachable w /\
    factor (fst w) = 0 /\
    recomputes (fst w) 50000 = true /\
    step w (PktsAcked 1 50000) = Fault DivByZero /\
    run (module_load, fresh_sock) (cs ++ [PktsAcked 1 50000])
      = Fault DivByZero.
Proof.
  exists (Init :: WriteFactor 0 :: repeat (PktsAcked 1 50000) 99),
         ({| bandwidth := 0; base_cwnd := 0; rtt := 4950; rtt_cnt := 99;
             factor := 0 |}, {| snd_cwnd := 0 |}).
  split; [vm_compute; reflexivity|]. split.
  - exists module_load, fresh_sock,
      (WriteFactor 0 :: repeat (PktsAcked 1 50000) 99).
    vm_compute. reflexivity.
  - split; [reflexivity|]. split; [vm_compute; reflexivity|]. split.
    + cbn [step]. now apply zero_factor_faults.
    + vm_compute. reflexivity.
Qed.

(** C1, evaluated. With the bandwidth set to 1000, the factor at its
    default of 10 and a hundred samples of 50 ms, the average is 50 and
    the assignment of line 98 stores 1001: the C text shifts
    [1 + bandwidth] by [10 * 50 / 10000 = 0] bits.  The formula of the
    specification gives 5121 on the same inputs. *)
Theorem batch_target_at_example :
  exists (g : globals) (tp : tcp_sock),
    run (module_load, fresh_sock)
        (WriteBandwidth 1000 :: Init :: repeat (PktsAcked 1 50000) 100)
      = Ok (g, tp) /\
    bandwidth g = 1000 /\ factor g = 10 /\ rtt_cnt g = SAMPLE_SIZE /\
    rtt g / rtt_cnt g = 50 /\
    base_cwnd g = 1001 /\
    base_cwnd_rhs 1000 50 10 = Ok 1001 /\
    spec_compute_target 1000 50 10 = Ok 5121.
Proof.
  exists {| bandwidth := 1000; base_cwnd := 1001; rtt := 5000;
            rtt_cnt := 100; factor := 10 |}, {| snd_cwnd := 128000 |}.
  vm_compute. repeat split.
Qed.

(** C7, evaluated. The floor of 1 does not survive the parse of line 98:
    with bandwidth 0, factor 1 and a hundred samples of 299 ms the target
    is [1 << 2 = 4], and with bandwidth 2^32 - 1 at the default factor it
    is 0.  The formula of the specification gives 1 and 429492 there. *)
Theorem target_floor_at_examples :
  run (module_load, fresh_sock)
      (Init :: WriteFactor 1 :: repeat (PktsAcked 1 299000) 100)
    = Ok ({| bandwidth := 0; base_cwnd := 4; rtt := 29900; rtt_cnt := 100;
             factor := 1 |}, {| snd_cwnd := 0 |}) /\
  base_cwnd_rhs 0 299 1 = Ok 4 /\
  spec_compute_target 0 299 1 = Ok 1 /\
  run (module_load, fresh_sock)
      (Init :: WriteBandwidth (-1) :: repeat (PktsAcked 1 50000) 100)
    = Ok ({| bandwidth := 4294967295; base_cwnd := 0; rtt := 5000;
             rtt_cnt := 100; factor := 10 |}, {| snd_cwnd := 0 |}) /\
  base_cwnd_rhs 4294967295 50 10 = Ok 0 /\
  spec_compute_target 4294967295 50 10 = Ok 429492.
Proof. vm_compute. repeat split. Qed.

(** * Further properties of the callbacks *)

(** ** Which samples are accepted *)

Lemma accepted_window (rtt_us : Z) :
  valid_ms (S32.div rtt_us 1000) = true <-> 1000 <= rtt_us <= 299999.
Proof.
  unfold valid_ms, S32.div.
  rewrite andb_true_iff, Z.ltb_lt, Z.ltb_lt.
  assert (Hq := Z.quot_rem' rtt_us 1000).
  destruct (Z.le_gt_cases 0 rtt_us) as [Hpos|Hneg].
  - assert (Hr := Z.rem_bound_pos rtt_us 1000 Hpos eq_refl). lia.
  - assert (Hr := Z.rem_bound_pos_neg rtt_us 1000 eq_refl (Z.lt_le_incl _ _ Hneg)).
    lia.
Qed.


Lemma sample_rejected (rtt_us : Z) :
  ~ (1000 <= rtt_us <= 299999) -> valid_ms (S32.div rtt_us 1000) = false.
Proof.
  intros H. destruct (valid_ms _) eqn:E; [|reflexivity].
  apply accepted_window in E. contradiction.
Qed.

(** X2. A rejected sample never changes the count or the sum, and while
    the count is not exactly [SAMPLE_SIZE] the whole call returns with
    nothing changed. *)
Theorem rejected_sample_keeps_accumulator
    (g : globals) (tp : tcp_sock) (num_acked rtt_us : Z) :
  ~ (1000 <= rtt_us <= 299999) ->
  (rtt_cnt g <> SAMPLE_SIZE ->
   tcp_mario_pkts_acked g tp num_acked rtt_us = Ok (g, tp)) /\
  (forall g' tp',
     tcp_mario_pkts_acked g tp num_acked rtt_us = Ok (g', tp') ->
     rtt_cnt g' = rtt_cnt g /\ rtt g' = rtt g /\ tp' = tp).
Proof.
  intros Hrej. apply sample_rejected in Hrej.
  unfold tcp_mario_pkts_acked. rewrite (accumulate_rejects _ _ Hrej).
  split.
  - intros Hne. destruct (frozen g); [reflexivity|].
    now destruct (Z.eqb_spec (rtt_cnt g) SAMPLE_SIZE).
  - intros g' tp'. destruct (frozen g); [now intros [= <- <-]|].
    destruct (rtt_cnt g =? SAMPLE_SIZE); [|now intros [= <- <-]].
    destruct (recompute g) as [g1|] eqn:Hr; cbn [bind]; [|discriminate].
    intros [= <- <-]. apply recompute_frame in Hr as [v ->]. now repeat split.
Qed.

Lemma rejected_sample_keeps_accumulator_witness :
  let g := {| bandwidth := 1000; base_cwnd := 128000; rtt := 350;
              rtt_cnt := 7; factor := 10 |} in
  tcp_mario_pkts_acked g fresh_sock 1 (-1) = Ok (g, fresh_sock) /\
  tcp_mario_pkts_acked g fresh_sock 1 300000 = Ok (g, fresh_sock).
Proof.
  intros g. split.
  - apply (rejected_sample_keeps_accumulator g fresh_sock 1 (-1)); [lia|].
    cbn. discriminate.
  - apply (rejected_sample_keeps_accumulator g fresh_sock 1 300000); [lia|].
    cbn. discriminate.
Defined.

(** ** The window of [tcp_mario_init] *)

(** X3. For a 32-bit bandwidth the initial window is the mathematical
    product [bandwidth * 128] exactly when the bandwidth is below 2^25;
    from 2^25 on the shift loses the high bits.  It is a multiple of 128
    in either case. *)
Theorem init_window_wraps_from_2_25 (g : globals) (tp : tcp_sock) :
  U32.in_range (bandwidth g) ->
  (snd_cwnd (snd (tcp_mario_init g tp)) = bandwidth g * 128
     <-> bandwidth g < 2 ^ 25) /\
  snd_cwnd (snd (tcp_mario_init g tp)) mod 128 = 0.
Proof.
  unfold U32.in_range, U32.modulus. intros Hb.
  cbn [tcp_mario_init fst snd snd_cwnd base_cwnd set_snd_cwnd set_base_cwnd
       set_rtt set_rtt_cnt].
  rewrite shl_as_mul by lia. unfold U32.mul, U32.to_u32, U32.modulus.
  change (2 ^ 7) with 128. change (2 ^ 25) with 33554432.
  change (2 ^ 32) with 4294967296 in *.
  split.
  - split.
    + intros Heq.
      assert (Hm := Z.mod_pos_bound (bandwidth g * 128) 4294967296 eq_refl).
      lia.
    + intros Hlt. apply Z.mod_small. lia.
  - rewrite Z.mod_mod_divide by (exists 33554432; reflexivity).
    apply Z.mod_mul. lia.
Qed.

Lemma init_window_wraps_from_2_25_witness :
  let g := sysctl_bandwidth 1000 module_load in
  U32.in_range (bandwidth g) /\
  snd_cwnd (snd (tcp_mario_init g fresh_sock)) = bandwidth g * 128.
Proof.
  intros g.
  assert (Hr : U32.in_range (bandwidth g)) by (vm_compute; split; congruence).
  split; [exact Hr|].
  apply (proj1 (init_window_wraps_from_2_25 g fresh_sock Hr)).
  reflexivity.
Defined.

(** ** What the accumulator holds *)

Lemma valid_ms_bounds (ms : Z) : valid_ms ms = true -> 1 <= ms <= 299.
Proof.
  unfold valid_ms. rewrite andb_true_iff, Z.ltb_lt, Z.ltb_lt. lia.
Qed.

Lemma small_is_u32 (z : Z) : 0 <= z <= 1000000 -> U32.to_u32 z = z.
Proof.
  intros H. apply to_u32_small. unfold U32.in_range, U32.modulus.
  change (2 ^ 32) with 4294967296. lia.
Qed.

Lemma accumulate_inv (g : globals) (rtt_us : Z) :
  sampler_inv g -> frozen g = false -> sampler_inv (accumulate g rtt_us).
Proof.
  unfold sampler_inv, frozen, SAMPLE_SIZE. intros [Hc Hs] Hf.
  apply Z.ltb_ge in Hf. unfold accumulate.
  destruct (valid_ms _) eqn:Hv; [|lia].
  apply valid_ms_bounds in Hv.
  cbn [rtt rtt_cnt set_rtt set_rtt_cnt]. unfold U32.add.
  rewrite !small_is_u32 by lia. lia.
Qed.

Lemma pkts_acked_inv (g g' : globals) (tp tp' : tcp_sock) (num_acked rtt_us : Z) :
  sampler_inv g ->
  tcp_mario_pkts_acked g tp num_acked rtt_us = Ok (g', tp') ->
  sampler_inv g'.
Proof.
  intros Hinv. unfold tcp_mario_pkts_acked.
  destruct (frozen g) eqn:Hf; [now intros [= <- _]|].
  assert (Ha := accumulate_inv g rtt_us Hinv Hf).
  destruct (_ =? SAMPLE_SIZE); [|now intros [= <- _]].
  destruct (recompute _) as [g1|] eqn:Hr; cbn [bind]; [|discriminate].
  intros [= <- _]. apply recompute_frame in Hr as [v ->]. exact Ha.
Qed.

Lemma step_inv (w w' : world) (c : call) :
  sampler_inv (fst w) -> step w c = Ok w' -> sampler_inv (fst w').
Proof.
  destruct w as [g tp], w' as [g' tp']. cbn [fst]. intros Hinv.
  destruct c; cbn [step]; try (now intros [= <- _]).
  apply pkts_acked_inv, Hinv.
Qed.

Lemma run_inv (cs : list call) : forall (w w' : world),
  sampler_inv (fst w) -> run w cs = Ok w' -> sampler_inv (fst w').
Proof.
  induction cs as [|c cs IH]; intros w w' Hinv; cbn [run].
  - now intros [= <-].
  - destruct (step w c) as [w1|] eqn:Hs; cbn [bind]; [|discriminate].
    apply IH. eapply step_inv; eassumption.
Qed.

Lemma reachable_inv (w : world) : reachable w -> sampler_inv (fst w).
Proof.
  intros (g0 & tp0 & cs & Hrun). eapply run_inv; [|exact Hrun].
  unfold sampler_inv, SAMPLE_SIZE. cbn. lia.
Qed.

(** X4. Once a connection has been initialised, whatever calls follow,
    every counted sample has contributed between 1 and 299 ms: the sum
    lies between the count and 299 times the count (so it never wraps),
    and the average taken when the count is [SAMPLE_SIZE] lies between 1
    and 299. *)
Theorem reachable_sum_bounds (w : world) :
  reachable w ->
  rtt_cnt (fst w) <= rtt (fst w) <= 299 * rtt_cnt (fst w) /\
  (rtt_cnt (fst w) = SAMPLE_SIZE ->
   1 <= rtt (fst w) / rtt_cnt (fst w) <= 299).
Proof.
  intros Hr. apply reachable_inv in Hr. destruct Hr as [Hc Hs].
  split; [exact Hs|]. unfold SAMPLE_SIZE. intros Heq. rewrite Heq in *.
  split.
  - apply Z.div_le_lower_bound; lia.
  - apply Z.div_le_upper_bound; lia.
Qed.

Lemma reachable_sum_bounds_witness :
  let w := ({| bandwidth := 0; base_cwnd := 0; rtt := 70; rtt_cnt := 2;
               factor := 10 |}, {| snd_cwnd := 0 |}) in
  reachable w /\ rtt_cnt (fst w) <= rtt (fst w) <= 299 * rtt_cnt (fst w).
Proof.
  intros w.
  assert (Hr : reachable w).
  { exists module_load, fresh_sock, (deliver [20000; -1; 50000]).
    reflexivity. }
  split; [exact Hr|]. exact (proj1 (reachable_sum_bounds w Hr)).
Defined.

(** ** The value and the faults of line 98 *)

(** For an average the sampler can produce and a factor whose product
    with 1000 fits 32 bits, line 98 has a value: [1 + bandwidth] shifted
    by [avg_rtt / (100 * factor)] bits, which is 0, 1 or 2. *)
Lemma base_cwnd_rhs_closed_form (bw avg f : Z) :
  0 <= avg <= 299 ->
  1 <= f <= 4294967 ->
  0 <= avg / (100 * f) <= 2 /\
  base_cwnd_rhs bw avg f
    = Ok (U32.mul (U32.add 1 bw) (2 ^ (avg / (100 * f)))).
Proof.
  intros Ha Hf.
  assert (Hd : U32.mul f 1000 = 10 * (100 * f)).
  { unfold U32.mul. rewrite to_u32_small; [lia|].
    unfold U32.in_range, U32.modulus. change (2 ^ 32) with 4294967296. lia. }
  assert (Hn : U32.mul 10 avg = 10 * avg)
    by (unfold U32.mul; apply small_is_u32; lia).
  assert (Hq : U32.mul 10 avg / U32.mul f 1000 = avg / (100 * f))
    by (rewrite Hd, Hn; apply Z.div_mul_cancel_l; lia).
  assert (Hc : 0 <= avg / (100 * f) <= 2).
  { split; [apply Z.div_pos; lia|].
    apply Z.lt_succ_r. apply Z.div_lt_upper_bound; lia. }
  split; [exact Hc|].
  rewrite base_cwnd_rhs_parse by lia.
  rewrite Hq. f_equal. apply shl_as_mul. lia.
Qed.

Lemma recomputes_batch (g : globals) (rtt_us : Z) :
  recomputes g rtt_us = true ->
  frozen g = false /\ rtt_cnt (accumulate g rtt_us) = SAMPLE_SIZE.
Proof.
  unfold recomputes. rewrite andb_true_iff, negb_true_iff, Z.eqb_eq. tauto.
Qed.

Lemma pkts_acked_returns_inv
    (g : globals) (tp : tcp_sock) (num_acked rtt_us : Z) :
  sampler_inv g ->
  1 <= factor g <= 4294967 ->
  exists g',
    tcp_mario_pkts_acked g tp num_acked rtt_us = Ok (g', tp) /\
    base_cwnd g' =
      if recomputes g rtt_us
      then U32.mul (U32.add 1 (bandwidth g))
             (2 ^ (rtt (accumulate g rtt_us) / SAMPLE_SIZE / (100 * factor g)))
      else base_cwnd g.
Proof.
  intros Hr Hf.
  rewrite pkts_acked_cases.
  destruct (recomputes g rtt_us) eqn:Hrec.
  - apply recomputes_batch in Hrec as [Hfz Hcnt].
    assert (Hinv := accumulate_inv g rtt_us Hr Hfz).
    destruct Hinv as [_ Hs]. rewrite Hcnt in Hs. unfold SAMPLE_SIZE in *.
    assert (Havg : 0 <= rtt (accumulate g rtt_us) / 100 <= 299).
    { split; [apply Z.div_pos; lia | apply Z.div_le_upper_bound; lia]. }
    destruct (accumulate_tunables g rtt_us) as (Hb & Hfa & _).
    unfold recompute. rewrite Hcnt. cbn [Z.eqb].
    rewrite Hb, Hfa.
    destruct (base_cwnd_rhs_closed_form (bandwidth g) _ (factor g) Havg Hf)
      as [_ ->].
    cbn [bind]. eexists. split; reflexivity.
  - destruct (frozen g); eexists; (split; [reflexivity|]);
      [reflexivity | apply (accumulate_tunables g rtt_us)].
Qed.

(** X5. In every state a connection can reach, with a factor between 1
    and 4294967, [tcp_mario_pkts_acked] returns: it neither divides by
    zero nor shifts out of range.  When the call completes a batch the
    new target is [1 + bandwidth] shifted left by
    [avg_rtt / (100 * factor)] bits (at most 2), in 32 bits; otherwise
    the target is unchanged. *)
Theorem pkts_acked_returns
    (g : globals) (tp : tcp_sock) (num_acked rtt_us : Z) :
  reachable (g, tp) ->
  1 <= factor g <= 4294967 ->
  exists g',
    tcp_mario_pkts_acked g tp num_acked rtt_us = Ok (g', tp) /\
    base_cwnd g' =
      if recomputes g rtt_us
      then U32.mul (U32.add 1 (bandwidth g))
             (2 ^ (rtt (accumulate g rtt_us) / SAMPLE_SIZE / (100 * factor g)))
      else base_cwnd g.
Proof.
  intros Hr Hf. apply reachable_inv in Hr.
  now apply pkts_acked_returns_inv.
Qed.

Lemma pkts_acked_returns_witness :
  let g := {| bandwidth := 7; base_cwnd := 896; rtt := 29601;
              rtt_cnt := 99; factor := 1 |} in
  let tp := {| snd_cwnd := 896 |} in
  reachable (g, tp) /\
  exists g', tcp_mario_pkts_acked g tp 1 299000 = Ok (g', tp) /\
             base_cwnd g' = 32.
Proof.
  intros g tp.
  assert (Hr : reachable (g, tp)).
  { exists (sysctl_factor 1 (sysctl_bandwidth 7 module_load)), fresh_sock,
      (deliver (repeat 299000 99)).
    vm_compute. reflexivity. }
  split; [exact Hr|].
  destruct (pkts_acked_returns g tp 1 299000 Hr) as (g' & Hok & Hcw);
    [cbn; lia|].
  exists g'. split; [exact Hok|]. rewrite Hcw. vm_compute. reflexivity.
Defined.

(** X6. With a factor between 3 and 4294967 -- the default of 10 among
    them -- the samples have no influence on the target: whenever a batch
    completes in a reachable state, the target becomes [1 + bandwidth]
    (in 32 bits), whatever round-trip times were measured. *)
Theorem target_ignores_samples
    (g : globals) (tp : tcp_sock) (num_acked rtt_us : Z) :
  reachable (g, tp) ->
  3 <= factor g <= 4294967 ->
  recomputes g rtt_us = true ->
  tcp_mario_pkts_acked g tp num_acked rtt_us
    = Ok (set_base_cwnd (U32.add 1 (bandwidth g)) (accumulate g rtt_us), tp).
Proof.
  intros Hr Hf Hrec. apply reachable_inv in Hr. cbn [fst] in Hr.
  rewrite pkts_acked_cases, Hrec.
  apply recomputes_batch in Hrec as [Hfz Hcnt].
  assert (Hinv := accumulate_inv g rtt_us Hr Hfz).
  destruct Hinv as [_ Hs]. rewrite Hcnt in Hs. unfold SAMPLE_SIZE in *.
  assert (Havg : 0 <= rtt (accumulate g rtt_us) / 100 <= 299).
  { split; [apply Z.div_pos; lia | apply Z.div_le_upper_bound; lia]. }
  destruct (accumulate_tunables g rtt_us) as (Hb & Hfa & _).
  unfold recompute. rewrite Hcnt. cbn [Z.eqb]. rewrite Hb, Hfa.
  rewrite base_cwnd_rhs_no_shift; [reflexivity|].
  unfold U32.mul. rewrite small_is_u32 by lia.
  rewrite to_u32_small; [lia|].
  unfold U32.in_range, U32.modulus. change (2 ^ 32) with 4294967296. lia.
Qed.

Lemma target_ignores_samples_witness :
  let g := {| bandwidth := 1000; base_cwnd := 128000; rtt := 29601;
              rtt_cnt := 99; factor := 10 |} in
  let tp := {| snd_cwnd := 128000 |} in
  exists g', tcp_mario_pkts_acked g tp 1 299000 = Ok (g', tp) /\
             base_cwnd g' = 1001.
Proof.
  intros g tp.
  assert (Hr : reachable (g, tp)).
  { exists (sysctl_bandwidth 1000 module_load), fresh_sock,
      (deliver (repeat 299000 99)).
    vm_compute. reflexivity. }
  eexists. split.
  - apply (target_ignores_samples g tp 1 299000 Hr); [cbn; lia|].
    vm_compute. reflexivity.
  - vm_compute. reflexivity.
Defined.

(** The divisor [factor * 1000] is 0 in 32 bits exactly for the factors
    that are multiples of 2^29. *)
Lemma divisor_zero_iff (f : Z) : U32.mul f 1000 = 0 <-> f mod 2 ^ 29 = 0.
Proof.
  unfold U32.mul, U32.to_u32, U32.modulus.
  rewrite Z.mod_divide by (now apply Z.pow_nonzero).
  rewrite Z.mod_divide by (now apply Z.pow_nonzero).
  change (2 ^ 32) with (8 * 2 ^ 29).
  replace (f * 1000) with (8 * (125 * f)) by lia.
  rewrite Z.mul_divide_cancel_l by lia.
  split.
  - intros H. apply Z.gauss with (m := 125); [exact H | reflexivity].
  - intros H. now apply Z.divide_mul_r.
Qed.

(** What [recompute] returns when the count is [SAMPLE_SIZE], fault by
    fault. *)
Lemma recompute_faults (g : globals) :
  rtt_cnt g = SAMPLE_SIZE ->
  let d := U32.mul (factor g) 1000 in
  let n := U32.mul 10 (rtt g / SAMPLE_SIZE) in
  (recompute g = Fault DivByZero <-> d = 0) /\
  (recompute g = Fault ShiftOutOfRange <-> d <> 0 /\ 32 * d <= n).
Proof.
  intros Hc d n. unfold recompute, base_cwnd_rhs. rewrite Hc.
  change (SAMPLE_SIZE =? 0) with false. cbv iota. fold d. fold n.
  assert (Hd : 0 <= d < 4294967296) by apply to_u32_range.
  destruct (Z.eqb_spec d 0) as [E|NE]; cbn [bind].
  - split; [tauto|]. split; [intros [=] | tauto].
  - destruct (Z.leb_spec 32 (n / d)) as [Hge|Hlt]; cbn [bind].
    + split; [split; [intros [=] | contradiction]|].
      split; [|reflexivity]. intros _. split; [exact NE|].
      assert (H := Z.mul_div_le n d). nia.
    + split; [split; [intros [=] | contradiction]|].
      split; [intros [=]|]. intros [_ Hle].
      assert (H : 32 <= n / d) by (apply Z.div_le_lower_bound; lia). lia.
Qed.

(** X7. A call that completes a batch divides by zero exactly when the
    factor is a multiple of 2^29: 0, but also 536870912 and the other
    values whose product with 1000 wraps to 0 in 32 bits. *)
Theorem division_by_zero_iff
    (g : globals) (tp : tcp_sock) (num_acked rtt_us : Z) :
  recomputes g rtt_us = true ->
  (tcp_mario_pkts_acked g tp num_acked rtt_us = Fault DivByZero
     <-> factor g mod 2 ^ 29 = 0).
Proof.
  intros Hrec. rewrite pkts_acked_cases, Hrec.
  apply recomputes_batch in Hrec as [_ Hcnt].
  destruct (recompute_faults _ Hcnt) as [Hdz _].
  destruct (accumulate_tunables g rtt_us) as (_ & Hfa & _).
  rewrite Hfa in Hdz. rewrite <- divisor_zero_iff, <- Hdz.
  destruct (recompute _) as [g1|f]; cbn [bind];
    split; intros [=]; subst; reflexivity.
Qed.

Lemma division_by_zero_iff_witness :
  let g := {| bandwidth := 1000; base_cwnd := 128000; rtt := 4950;
              rtt_cnt := 99; factor := 536870912 |} in
  tcp_mario_pkts_acked g fresh_sock 1 50000 = Fault DivByZero.
Proof.
  intros g.
  apply (division_by_zero_iff g fresh_sock 1 50000); reflexivity.
Defined.

(** X8. A call that completes a batch shifts by 32 bits or more, which C
    leaves undefined, exactly when the 32-bit divisor [factor * 1000] is
    not 0 and 32 times the divisor is at most [10 * avg_rtt].  The factor
    42949673, whose product with 1000 wraps to 40, does it for samples
    of 200 ms. *)
Theorem shift_out_of_range_iff
    (g : globals) (tp : tcp_sock) (num_acked rtt_us : Z) :
  recomputes g rtt_us = true ->
  (tcp_mario_pkts_acked g tp num_acked rtt_us = Fault ShiftOutOfRange
     <-> U32.mul (factor g) 1000 <> 0 /\
         32 * U32.mul (factor g) 1000
           <= U32.mul 10 (rtt (accumulate g rtt_us) / SAMPLE_SIZE)).
Proof.
  intros Hrec. rewrite pkts_acked_cases, Hrec.
  apply recomputes_batch in Hrec as [_ Hcnt].
  destruct (recompute_faults _ Hcnt) as [_ Hsh].
  destruct (accumulate_tunables g rtt_us) as (_ & Hfa & _).
  rewrite Hfa in Hsh. rewrite <- Hsh.
  destruct (recompute _) as [g1|f]; cbn [bind];
    split; intros [=]; subst; reflexivity.
Qed.

Lemma shift_out_of_range_iff_witness :
  let g := {| bandwidth := 1000; base_cwnd := 128000; rtt := 19800;
              rtt_cnt := 99; factor := 42949673 |} in
  let tp := {| snd_cwnd := 128000 |} in
  reachable (g, tp) /\
  tcp_mario_pkts_acked g tp 1 200000 = Fault ShiftOutOfRange.
Proof.
  intros g tp. split.
  - exists (sysctl_factor 42949673 (sysctl_bandwidth 1000 module_load)),
      fresh_sock, (deliver (repeat 200000 99)).
    vm_compute. reflexivity.
  - apply (shift_out_of_range_iff g tp 1 200000); [reflexivity|].
    vm_compute. split; [discriminate | discriminate].
Defined.

(** ** A connection from [tcp_mario_init] to its first batch *)

Lemma run_app (cs1 cs2 : list call) : forall w : world,
  run w (cs1 ++ cs2) = bind (run w cs1) (fun w' => run w' cs2).
Proof.
  induction cs1 as [|c cs1 IH]; intros w; cbn [app run bind]; [reflexivity|].
  destruct (step w c) as [w1|f]; cbn [bind]; [apply IH | reflexivity].
Qed.

Lemma valid_samples_cons (r : Z) (rs : list Z) :
  valid_samples (r :: rs) =
    (if valid_ms (S32.div r 1000) then 1 else 0) + valid_samples rs.
Proof.
  unfold valid_samples. cbn [filter].
  destruct (valid_ms _); cbn [length]; lia.
Qed.

Lemma valid_sum_cons (r : Z) (rs : list Z) :
  valid_sum (r :: rs) =
    (if valid_ms (S32.div r 1000) then S32.div r 1000 else 0) + valid_sum rs.
Proof.
  unfold valid_sum. cbn [filter].
  destruct (valid_ms _); cbn [map fold_right]; lia.
Qed.

Lemma valid_samples_nonneg (rs : list Z) : 0 <= valid_samples rs.
Proof. unfold valid_samples. lia. Qed.

Lemma valid_samples_app (rs1 rs2 : list Z) :
  valid_samples (rs1 ++ rs2) = valid_samples rs1 + valid_samples rs2.
Proof.
  induction rs1 as [|r rs1 IH]; [reflexivity|].
  cbn [app]. rewrite !valid_samples_cons, IH. lia.
Qed.

Lemma valid_sum_app (rs1 rs2 : list Z) :
  valid_sum (rs1 ++ rs2) = valid_sum rs1 + valid_sum rs2.
Proof.
  induction rs1 as [|r rs1 IH]; [reflexivity|].
  cbn [app]. rewrite !valid_sum_cons, IH. lia.
Qed.

(** Below the batch size a burst adds its accepted samples to the count
    and to the sum and leaves everything else alone. *)
Lemma deliver_below_batch (samples : list Z) :
  forall (g : globals) (tp : tcp_sock),
  sampler_inv g ->
  rtt_cnt g + valid_samples samples < SAMPLE_SIZE ->
  run (g, tp) (deliver samples)
    = Ok ({| bandwidth := bandwidth g; base_cwnd := base_cwnd g;
             rtt := rtt g + valid_sum samples;
             rtt_cnt := rtt_cnt g + valid_samples samples;
             factor := factor g |}, tp).
Proof.
  induction samples as [|r rs IH]; intros g tp Hinv Hlt.
  - cbn [deliver map run]. destruct g. cbn. repeat f_equal; lia.
  - assert (Hv := valid_samples_nonneg rs).
    rewrite valid_samples_cons in *. rewrite valid_sum_cons.
    assert (Hinv' := Hinv). destruct Hinv' as [Hc Hs]. unfold SAMPLE_SIZE in *.
    assert (Hfz : frozen g = false)
      by (unfold frozen, SAMPLE_SIZE; apply Z.ltb_ge;
          destruct (valid_ms _); lia).
    assert (Hacc : accumulate g r =
              {| bandwidth := bandwidth g; base_cwnd := base_cwnd g;
                 rtt := rtt g +
                   (if valid_ms (S32.div r 1000) then S32.div r 1000 else 0);
                 rtt_cnt := rtt_cnt g +
                   (if valid_ms (S32.div r 1000) then 1 else 0);
                 factor := factor g |}).
    { unfold accumulate. destruct (valid_ms _) eqn:Hval.
      - apply valid_ms_bounds in Hval.
        cbn [set_rtt set_rtt_cnt bandwidth base_cwnd rtt rtt_cnt factor].
        unfold U32.add. rewrite !small_is_u32 by lia. reflexivity.
      - destruct g. cbn. repeat f_equal; lia. }
    assert (Hne : (rtt_cnt (accumulate g r) =? SAMPLE_SIZE) = false)
      by (apply Z.eqb_neq; rewrite Hacc; unfold SAMPLE_SIZE; cbn [rtt_cnt];
          destruct (valid_ms _); lia).
    assert (Hstep : tcp_mario_pkts_acked g tp 1 r = Ok (accumulate g r, tp))
      by (unfold tcp_mario_pkts_acked; rewrite Hfz, Hne; reflexivity).
    cbn [deliver map run step]. rewrite Hstep. cbn [bind]. fold (deliver rs).
    rewrite IH.
    + rewrite Hacc. cbn [bandwidth base_cwnd rtt rtt_cnt factor].
      do 2 f_equal. f_equal; lia.
    + now apply accumulate_inv.
    + rewrite Hacc. cbn [rtt_cnt]. unfold SAMPLE_SIZE. lia.
Qed.

Lemma init_then_deliver (g : globals) (tp : tcp_sock) (samples : list Z) :
  valid_samples samples < SAMPLE_SIZE ->
  run (tcp_mario_init g tp) (deliver samples)
    = Ok ({| bandwidth := bandwidth g;
             base_cwnd := U32.mul (bandwidth g) 128;
             rtt := valid_sum samples;
             rtt_cnt := valid_samples samples;
             factor := factor g |},
          {| snd_cwnd := U32.mul (bandwidth g) 128 |}).
Proof.
  intros Hlt. unfold tcp_mario_init.
  cbn [set_snd_cwnd set_rtt_cnt set_rtt set_base_cwnd base_cwnd].
  rewrite deliver_below_batch.
  - cbn [bandwidth base_cwnd rtt rtt_cnt factor].
    rewrite shl_as_mul by lia. reflexivity.
  - unfold sampler_inv, SAMPLE_SIZE. cbn. lia.
  - change (0 + valid_samples samples < SAMPLE_SIZE). lia.
Qed.

(** X9. From [tcp_mario_init] up to the batch: after any burst with
    fewer than [SAMPLE_SIZE] accepted samples the count is the number of
    accepted samples, the sum is their sum in milliseconds, and both the
    target and the active window still are [bandwidth * 128] -- whatever
    the module held before the init, a frozen sampler included. *)
Theorem init_then_samples (g : globals) (tp : tcp_sock) (samples : list Z) :
  valid_samples samples < SAMPLE_SIZE ->
  run (tcp_mario_init g tp) (deliver samples)
    = Ok ({| bandwidth := bandwidth g;
             base_cwnd := U32.mul (bandwidth g) 128;
             rtt := valid_sum samples;
             rtt_cnt := valid_samples samples;
             factor := factor g |},
          {| snd_cwnd := U32.mul (bandwidth g) 128 |}).
Proof.
  apply init_then_deliver.
Qed.

Lemma init_then_samples_witness :
  let g := {| bandwidth := 1000; base_cwnd := 1001; rtt := 5050;
              rtt_cnt := 101; factor := 10 |} in
  run (tcp_mario_init g fresh_sock) (deliver [20000; -1; 999; 50000; 300000])
    = Ok ({| bandwidth := 1000; base_cwnd := 128000; rtt := 70;
             rtt_cnt := 2; factor := 10 |}, {| snd_cwnd := 128000 |}).
Proof.
  intros g.
  apply (init_then_samples g fresh_sock [20000; -1; 999; 50000; 300000]).
  vm_compute. reflexivity.
Defined.

(** X10. The first batch of a connection, end to end.  When the
    hundredth accepted sample arrives after [tcp_mario_init] and the
    factor is between 1 and 4294967, the call returns, the target becomes
    [1 + bandwidth] shifted left by [avg / (100 * factor)] bits, where
    [avg] is the sum of the hundred accepted samples in milliseconds
    divided by 100, and the active window is still [bandwidth * 128]. *)
Theorem first_batch
    (g : globals) (tp : tcp_sock) (samples : list Z) (rtt_us : Z) :
  valid_samples samples = SAMPLE_SIZE - 1 ->
  1000 <= rtt_us <= 299999 ->
  1 <= factor g <= 4294967 ->
  run (tcp_mario_init g tp) (deliver (samples ++ [rtt_us]))
    = Ok ({| bandwidth := bandwidth g;
             base_cwnd :=
               U32.mul (U32.add 1 (bandwidth g))
                 (2 ^ (valid_sum (samples ++ [rtt_us]) / SAMPLE_SIZE
                         / (100 * factor g)));
             rtt := valid_sum (samples ++ [rtt_us]);
             rtt_cnt := SAMPLE_SIZE;
             factor := factor g |},
          {| snd_cwnd := U32.mul (bandwidth g) 128 |}).
Proof.
  intros Hn Hacc Hf. apply accepted_window in Hacc.
  unfold deliver. rewrite map_app. fold (deliver samples).
  rewrite run_app, init_then_deliver by (rewrite Hn; unfold SAMPLE_SIZE; lia).
  cbn [bind map run step].
  set (g1 := {| bandwidth := bandwidth g;
                base_cwnd := U32.mul (bandwidth g) 128;
                rtt := valid_sum samples; rtt_cnt := valid_samples samples;
                factor := factor g |}).
  set (tp1 := {| snd_cwnd := U32.mul (bandwidth g) 128 |}).
  assert (Hr : reachable (g1, tp1)).
  { exists g, tp, (deliver samples). apply init_then_deliver.
    rewrite Hn. unfold SAMPLE_SIZE. lia. }
  assert (Hinv := reachable_inv _ Hr). cbn [fst] in Hinv.
  destruct Hinv as [_ Hs]. unfold g1 in Hs. cbn [rtt rtt_cnt] in Hs.
  rewrite Hn in Hs. unfold SAMPLE_SIZE in Hs.
  assert (Hms := valid_ms_bounds _ Hacc).
  assert (Ha : accumulate g1 rtt_us =
            {| bandwidth := bandwidth g;
               base_cwnd := U32.mul (bandwidth g) 128;
               rtt := valid_sum (samples ++ [rtt_us]);
               rtt_cnt := SAMPLE_SIZE; factor := factor g |}).
  { rewrite (accumulate_accepts _ _ Hacc). unfold g1.
    cbn [bandwidth base_cwnd rtt rtt_cnt factor]. rewrite Hn.
    rewrite valid_sum_app, valid_sum_cons, Hacc.
    unfold U32.add, SAMPLE_SIZE. rewrite !small_is_u32 by lia.
    change (valid_sum []) with 0. f_equal; lia. }
  assert (Hrec : recomputes g1 rtt_us = true).
  { unfold recomputes. rewrite Ha. unfold frozen, g1. cbn [rtt_cnt].
    rewrite Hn. reflexivity. }
  destruct (pkts_acked_returns_inv g1 tp1 1 rtt_us (reachable_inv _ Hr) Hf)
    as (g' & Hok & Hcw).
  rewrite Hok. cbn [bind]. f_equal. f_equal.
  rewrite Hrec, Ha in Hcw. cbn [rtt bandwidth] in Hcw. unfold g1 in Hcw.
  cbn [bandwidth factor] in Hcw.
  rewrite pkts_acked_cases, Hrec in Hok.
  destruct (recompute (accumulate g1 rtt_us)) as [g2|] eqn:Hre;
    cbn [bind] in Hok; [|discriminate].
  injection Hok as <-. apply recompute_frame in Hre as [v ->].
  rewrite Ha in *. cbn [set_base_cwnd base_cwnd bandwidth rtt rtt_cnt factor] in *.
  now rewrite Hcw.
Qed.

Lemma first_batch_witness :
  let g := sysctl_factor 1 (sysctl_bandwidth 7 module_load) in
  run (tcp_mario_init g fresh_sock) (deliver (repeat 299000 99 ++ [299000]))
    = Ok ({| bandwidth := 7; base_cwnd := 32; rtt := 29900; rtt_cnt := 100;
             factor := 1 |}, {| snd_cwnd := 896 |}).
Proof.
  intros g.
  rewrite (first_batch g fresh_sock (repeat 299000 99) 299000).
  - vm_compute. reflexivity.
  - vm_compute. reflexivity.
  - lia.
  - vm_compute. split; discriminate.
Defined.

(** ** After the batch *)

(** X11. When every delivered sample is an accepted one, line 98 is
    reached once if the burst after [tcp_mario_init] has a hundred samples
    or more, and not at all if it has fewer: the hundred-and-first sample
    freezes the sampler. *)
Theorem accepted_samples_recompute_once
    (g : globals) (tp : tcp_sock) (samples : list Z) :
  Forall (fun r => 1000 <= r <= 299999) samples ->
  recomputations (tcp_mario_init g tp) (deliver samples)
    = if SAMPLE_SIZE <=? Z.of_nat (length samples) then 1%nat else O.
Proof.
  intros Hall.
  assert (Hgen : forall (g : globals) (tp : tcp_sock),
            0 <= rtt_cnt g <= SAMPLE_SIZE + 1 ->
            recomputations (g, tp) (deliver samples)
              = if (rtt_cnt g <? SAMPLE_SIZE)
                   && (SAMPLE_SIZE <=? rtt_cnt g + Z.of_nat (length samples))
                then 1%nat else O).
  { clear g tp. induction Hall as [|r rs Hr Hrs IH]; intros g tp Hc.
    - cbn [deliver map recomputations length Z.of_nat].
      destruct (Z.ltb_spec (rtt_cnt g) SAMPLE_SIZE);
        destruct (Z.leb_spec SAMPLE_SIZE (rtt_cnt g + 0)); cbn [andb];
        try reflexivity; lia.
    - apply accepted_window in Hr.
      cbn [deliver map recomputations step fst]. fold (deliver rs).
      rewrite pkts_acked_cases. unfold recomputes.
      rewrite (accumulate_accepts g r Hr). cbn [rtt_cnt].
      unfold frozen. unfold SAMPLE_SIZE in *.
      replace (Z.of_nat (length (r :: rs)))
        with (1 + Z.of_nat (length rs)) by (cbn [length]; lia).
      destruct (Z.ltb_spec 100 (rtt_cnt g)) as [Hfz|Hfz]; cbn [negb andb].
      + rewrite IH by lia.
        destruct (Z.ltb_spec (rtt_cnt g) 100); [lia|]. reflexivity.
      + unfold U32.add. rewrite small_is_u32 by lia.
        destruct (Z.eqb_spec (rtt_cnt g + 1) 100) as [E|NE].
        * destruct (Z.ltb_spec (rtt_cnt g) 100); [|lia].
          destruct (Z.leb_spec 100 (rtt_cnt g + (1 + Z.of_nat (length rs))));
            [|lia]. cbn [andb].
          destruct (recompute _) as [g1|] eqn:Hrec; cbn [bind]; [|reflexivity].
          apply recompute_frame in Hrec as [v ->].
          rewrite IH by (cbn [rtt_cnt set_base_cwnd]; lia).
          cbn [rtt_cnt set_base_cwnd]. rewrite E. reflexivity.
        * rewrite IH by (cbn [rtt_cnt]; lia). cbn [rtt_cnt].
          destruct (Z.ltb_spec (rtt_cnt g) 100);
            destruct (Z.ltb_spec (rtt_cnt g + 1) 100);
            destruct (Z.leb_spec 100 (rtt_cnt g + (1 + Z.of_nat (length rs))));
            destruct (Z.leb_spec 100 (rtt_cnt g + 1 + Z.of_nat (length rs)));
            cbn [andb]; try reflexivity; lia. }
  set (w := tcp_mario_init g tp).
  assert (Hw : rtt_cnt (fst w) = 0) by reflexivity.
  destruct w as [g0 tp0]. cbn [fst] in Hw.
  rewrite Hgen by (rewrite Hw; unfold SAMPLE_SIZE; lia).
  rewrite Hw. reflexivity.
Qed.

Lemma accepted_samples_recompute_once_witness :
  recomputations (tcp_mario_init module_load fresh_sock)
                 (deliver (repeat 50000 150)) = 1%nat.
Proof.
  rewrite (accepted_samples_recompute_once module_load fresh_sock
             (repeat 50000 150)).
  - reflexivity.
  - apply Forall_forall. intros r Hin. apply repeat_spec in Hin. subst r. lia.
Defined.

(** X12. Once the count has passed [SAMPLE_SIZE], only
    [tcp_mario_init] brings the sampler back: any sequence of the other
    callbacks and of sysctl writes returns without a fault and leaves the
    count, the sum and the target as they were.  A bandwidth or factor
    written in that state has no effect on the target. *)
Theorem frozen_until_init (cs : list call) :
  forall (g : globals) (tp : tcp_sock),
  frozen g = true ->
  forallb (fun c => negb (is_init c)) cs = true ->
  exists g' tp',
    run (g, tp) cs = Ok (g', tp') /\
    rtt_cnt g' = rtt_cnt g /\ rtt g' = rtt g /\
    base_cwnd g' = base_cwnd g /\
    (snd_cwnd tp' = snd_cwnd tp \/ snd_cwnd tp' = base_cwnd g).
Proof.
  induction cs as [|c cs IH]; intros g tp Hfz Hni.
  - exists g, tp. cbn. tauto.
  - cbn [forallb] in Hni. apply andb_prop in Hni as [Hc Hcs].
    assert (Hstep : exists g1 tp1,
              step (g, tp) c = Ok (g1, tp1) /\ frozen g1 = true /\
              rtt_cnt g1 = rtt_cnt g /\ rtt g1 = rtt g /\
              base_cwnd g1 = base_cwnd g /\
              (snd_cwnd tp1 = snd_cwnd tp \/ snd_cwnd tp1 = base_cwnd g)).
    { destruct c; cbn [is_init negb] in Hc; try discriminate; cbn [step].
      - eexists _, _. split; [reflexivity|]. cbn. tauto.
      - eexists _, _. split; [reflexivity|]. cbn. tauto.
      - rewrite (pkts_acked_frozen _ _ _ _ Hfz).
        eexists _, _. split; [reflexivity|]. tauto.
      - eexists _, _. split; [reflexivity|]. cbn. tauto.
      - eexists _, _. split; [reflexivity|]. cbn. tauto.
      - eexists _, _. split; [reflexivity|]. cbn. tauto. }
    destruct Hstep as (g1 & tp1 & Hs & Hfz1 & Hc1 & Hr1 & Hb1 & Hw1).
    destruct (IH g1 tp1 Hfz1 Hcs) as (g' & tp' & Hrun & Hc' & Hr' & Hb' & Hw').
    exists g', tp'. cbn [run]. rewrite Hs. cbn [bind].
    split; [exact Hrun|]. rewrite Hc', Hr', Hb'.
    repeat split; try assumption.
    rewrite Hb1 in Hw'. destruct Hw' as [->| ->]; tauto.
Qed.

Lemma frozen_until_init_witness :
  let g := {| bandwidth := 1000; base_cwnd := 1001; rtt := 5050;
              rtt_cnt := 101; factor := 10 |} in
  exists g' tp',
    run (g, {| snd_cwnd := 1001 |})
        [WriteBandwidth 5000; WriteFactor 0; PktsAcked 1 50000;
         CongAvoid 1 1 1; PktsAcked 1 (-1); UndoCwnd]
      = Ok (g', tp') /\
    rtt_cnt g' = 101 /\ rtt g' = 5050 /\ base_cwnd g' = 1001.
Proof.
  intros g.
  destruct (frozen_until_init
              [WriteBandwidth 5000; WriteFactor 0; PktsAcked 1 50000;
               CongAvoid 1 1 1; PktsAcked 1 (-1); UndoCwnd]
              g {| snd_cwnd := 1001 |} eq_refl eq_refl)
    as (g' & tp' & Hrun & Hc & Hr & Hb & _).
  exists g', tp'. repeat split; assumption.
Defined.

(** ** Several connections over one set of statics *)

Lemma step_statics_any_sock (g : globals) (tp1 tp2 : tcp_sock) (c : call) :
  outcome_map fst (step (g, tp1) c) = outcome_map fst (step (g, tp2) c).
Proof.
  destruct c; cbn [step]; try reflexivity.
  rewrite !pkts_acked_cases.
  destruct (recomputes g rtt_us); [|reflexivity].
  now destruct (recompute _).
Qed.

(** X13. The callbacks never read the socket, and the statics belong to
    the module, not to a connection: however the calls of a run are spread
    over connections, the statics -- count, sum, target, tunables -- end
    up exactly as if one connection had made them all, and the run faults
    in the one case exactly when it faults in the other.  Samples of all
    connections feed one batch, and the [tcp_mario_init] of one
    connection restarts the batch of all. *)
Theorem connections_share_statics (ics : list (nat * call)) :
  forall (g : globals) (s : sockets) (tp : tcp_sock),
  outcome_map fst (run_on (g, s) ics)
    = outcome_map fst (run (g, tp) (map snd ics)).
Proof.
  induction ics as [|[i c] ics IH]; intros g s tp; [reflexivity|].
  cbn [run_on map snd run step_on].
  assert (Hs := step_statics_any_sock g (s i) tp c).
  destruct (step (g, s i) c) as [[g1 tp1]|f1];
    destruct (step (g, tp) c) as [[g2 tp2]|f2];
    cbn [outcome_map bind fst snd] in Hs |- *; try discriminate.
  - injection Hs as ->. apply IH.
  - exact Hs.
Qed.

(** ** Running line 98 again *)

(** X14. After a call that completed a batch, a rejected sample runs
    line 98 again on the same count, sum and tunables and stores the
    value that is already there: the call returns with nothing changed.
    Only a sysctl write in between makes the second pass visible. *)
Theorem rejected_sample_after_batch
    (g g' : globals) (tp tp' : tcp_sock) (num_acked rtt_us : Z)
    (num_acked' rtt_us' : Z) :
  recomputes g rtt_us = true ->
  tcp_mario_pkts_acked g tp num_acked rtt_us = Ok (g', tp') ->
  ~ (1000 <= rtt_us' <= 299999) ->
  recomputes g' rtt_us' = true /\
  tcp_mario_pkts_acked g' tp' num_acked' rtt_us' = Ok (g', tp').
Proof.
  intros Hrec Hok Hrej. apply sample_rejected in Hrej.
  rewrite pkts_acked_cases, Hrec in Hok.
  apply recomputes_batch in Hrec as [_ Hcnt].
  destruct (recompute (accumulate g rtt_us)) as [g1|] eqn:Hre;
    cbn [bind] in Hok; [|discriminate].
  injection Hok as <- <-.
  assert (Hre' := Hre). apply recompute_frame in Hre' as [v ->].
  set (a := accumulate g rtt_us) in *.
  assert (Hrec' : recomputes (set_base_cwnd v a) rtt_us' = true).
  { apply invalid_sample_at_batch_size; [exact Hcnt | exact Hrej]. }
  split; [exact Hrec'|].
  rewrite pkts_acked_cases, Hrec', (accumulate_rejects _ _ Hrej).
  unfold recompute in *. cbn [rtt_cnt rtt bandwidth factor set_base_cwnd] in *.
  destruct (rtt_cnt a =? 0); [discriminate|].
  destruct (base_cwnd_rhs _ _ _) as [v'|]; cbn [bind] in *; [|discriminate].
  injection Hre as ->. reflexivity.
Qed.

Lemma rejected_sample_after_batch_witness :
  let g := {| bandwidth := 1000; base_cwnd := 128000; rtt := 4950;
              rtt_cnt := 99; factor := 10 |} in
  let g' := {| bandwidth := 1000; base_cwnd := 1001; rtt := 5000;
               rtt_cnt := 100; factor := 10 |} in
  tcp_mario_pkts_acked g fresh_sock 1 50000 = Ok (g', fresh_sock) /\
  tcp_mario_pkts_acked g' fresh_sock 1 (-1) = Ok (g', fresh_sock).
Proof.
  intros g g'.
  assert (H : tcp_mario_pkts_acked g fresh_sock 1 50000 = Ok (g', fresh_sock))
    by (vm_compute; reflexivity).
  split; [exact H|].
  apply (rejected_sample_after_batch g g' fresh_sock fresh_sock 1 50000 1 (-1));
    [reflexivity | exact H | lia].
Defined.
